(** * Historical Artifact Description app: a shallow embedding of [app.py]

    The program is a Streamlit script: it builds a Gemini client from the
    process environment, declares a catalog of six prompt templates, lays
    out three input widgets and a button, and on submission validates the
    inputs, issues one generation request and renders the answer or an
    error.

    Python values are embedded as follows.
    - [str] is a sequence of Unicode code points ([list N]); a literal of
      the source is written [py "..."], non-ASCII characters are given by
      their code point.
    - [None]-able values are [option]s; Python truthiness is [truthy].
    - [os.environ] is a finite map from names to values.
    - [PROMPT_OPTIONS], an insertion-ordered [dict], is an association
      list (its order decides the select box).
    - Statements run in a state-and-exception monad [M] over [state]: the
      environment, the globals [client] and [PROMPT_OPTIONS], the
      elements rendered on the page and the requests sent to the model
      endpoint.
    - The script is executed from its first line at every interaction,
      so each execution binds the globals anew ([bind_globals]); the
      client's constructor raises when it gets no key.
    - The remote endpoint, the builtin [repr] and [Image.open] are
      parameters. *)

From Stdlib Require Import NArith Ascii String.
From stdpp Require Import gmap list strings.

Open Scope N_scope.

(** ** Python strings *)

Abbreviation str := (list N).
Abbreviation bytes := (list N).

Definition py (s : string) : str := N_of_ascii <$> list_ascii_of_string s.
Arguments py _%_string.

(** [str.isspace] on one character: the code points CPython's Unicode
    database classifies as whitespace. *)
Definition isspace (c : N) : bool :=
  ((9 <=? c) && (c <=? 13)) || ((28 <=? c) && (c <=? 32))
  || (c =? 133) || (c =? 160) || (c =? 5760)
  || ((8192 <=? c) && (c <=? 8202))
  || (c =? 8232) || (c =? 8233) || (c =? 8239) || (c =? 8287)
  || (c =? 12288).

Fixpoint lstrip (s : str) : str :=
  match s with
  | [] => []
  | c :: s' => if isspace c then lstrip s' else s
  end.

Definition rstrip (s : str) : str := rev (lstrip (rev s)).

(** [s.strip()] with no argument. *)
Definition strip (s : str) : str := rstrip (lstrip s).

(** Truthiness of a [str]: non-empty. *)
Definition truthy (s : str) : bool :=
  match s with [] => false | _ :: _ => true end.

(** Truthiness of a value that may be [None]. *)
Definition truthy_opt (o : option str) : bool :=
  match o with None => false | Some s => truthy s end.

(** [a or b] on values that may be [None]. *)
Definition py_or (a b : option str) : option str :=
  if truthy_opt a then a else b.

(** ** The query composer (first statement of [get_gemini_response]) *)

Definition full_prompt (input_text prompt : str) : str :=
  if truthy (strip input_text)
  then prompt ++ [10; 10] ++ py "Additional context from user: " ++ input_text
  else prompt.

(** ** Values exchanged with the libraries *)

(** The object returned by [st.file_uploader]. *)
Record UploadedFile := {
  getvalue : bytes;
  type : str
}.

(** [types.Part.from_bytes(data=..., mime_type=...)]. *)
Record Part := {
  data : bytes;
  mime_type : str
}.

(** [genai.Client(api_key=...)]: the client keeps the key it was built
    with. *)
Record Client := {
  api_key : option str
}.

(** One call of [client.models.generate_content]: the client it goes
    through, the model name and the two contents. *)
Record request := {
  via : Client;
  model : str;
  contents : str * Part
}.

(** Exceptions the script can meet: a missing dictionary key, or any
    failure of the remote call, carrying its message. *)
Inductive exception :=
| KeyError (key : str)
| GenerationError (msg : str).

Inductive outcome (A : Type) :=
| Ok (a : A)
| Raise (e : exception).
Arguments Ok {A} a.
Arguments Raise {A} e.

(** Elements put on the page, in rendering order. *)
Inductive element :=
| st_error (body : str)
| st_spinner (text : str)
| st_subheader (body : str)
| st_markdown (body : str).

(** ** The prompt catalog *)

Definition PROMPT_OPTIONS : list (str * str) := [
  (py "Describe",
   py "You are a historian. Provide a comprehensive description of the historical artifact in the image. Include its physical appearance, materials, craftsmanship, and overall significance.");
  (py "Identify & Classify",
   py "You are an expert art historian. Identify and classify the artifact in the image. Specify its type, estimated era or period, materials used, cultural origin, and any distinguishing features that help with identification.");
  (py "Historical Context",
   py "You are a historian. Analyze the historical context of this artifact. Explain the time period it comes from, the historical events or culture it relates to, and how it would have been used or valued in its time.");
  (py "Origin & Significance",
   py "You are a cultural historian. Describe the origin of this artifact"
     ++ [8212] ++ py "where it likely came from, the culture that produced it"
     ++ [8212] ++ py "and explain its historical and cultural significance. Why does it matter today?");
  (py "Cultural Analysis",
   py "You are an expert in cultural heritage. Analyze the artifact's cultural meaning, symbolism, religious or social significance, and how it reflects the values or beliefs of the people who created it.");
  (py "Conservation & Condition",
   py "You are a museum conservator. Assess the artifact's current condition, visible signs of wear or aging, potential materials and techniques used in its creation, and any conservation considerations or restoration that might be relevant.")
].

(** [d.keys()], as a list. *)
Definition keys (d : list (str * str)) : list str := fst <$> d.

(** The value [d[k]] when the key is present. *)
Fixpoint dict_get (d : list (str * str)) (k : str) : option str :=
  match d with
  | [] => None
  | (k', v) :: d' => if decide (k' = k) then Some v else dict_get d' k
  end.

(** [st.selectbox(label, options=..., index=...)]: the widget holds the
    option at [index] until the user picks another one; [pick] is the
    position of the user's pick, if any. *)
Definition selectbox (options : list str) (index : nat) (pick : option nat)
  : option str :=
  options !! (default index pick).

(** ** Program state and the monad of statements *)

Record state := {
  environ : gmap str str;              (* os.environ *)
  g_client : Client;                   (* global [client] *)
  g_PROMPT_OPTIONS : list (str * str); (* global [PROMPT_OPTIONS] *)
  page : list element;                 (* what has been rendered *)
  sent : list request                  (* calls made to the endpoint *)
}.

Definition M (A : Type) : Type := state -> outcome A * state.

Definition ret {A} (a : A) : M A := fun s => (Ok a, s).

Definition bind {A B} (m : M A) (k : A -> M B) : M B :=
  fun s => match m s with
           | (Ok a, s') => k a s'
           | (Raise e, s') => (Raise e, s')
           end.

Definition raise {A} (e : exception) : M A := fun s => (Raise e, s).

(** [try: m  except Exception as e: h e]. *)
Definition try_except {A} (m : M A) (h : exception -> M A) : M A :=
  fun s => match m s with
           | (Ok a, s') => (Ok a, s')
           | (Raise e, s') => h e s'
           end.

Notation "x <- m ;; k" := (bind m (fun x => k))
  (at level 100, m at next level, right associativity).
Notation "m ;;; k" := (bind m (fun _ => k))
  (at level 100, right associativity).

Definition os_getenv (name : str) : M (option str) :=
  fun s => (Ok (environ s !! name), s).

Definition render (e : element) : M unit :=
  fun s => (Ok tt,
            {| environ := environ s; g_client := g_client s;
               g_PROMPT_OPTIONS := g_PROMPT_OPTIONS s;
               page := page s ++ [e]; sent := sent s |}).

Definition read_client : M Client := fun s => (Ok (g_client s), s).

(** [PROMPT_OPTIONS[k]]: raises [KeyError] on a missing key. *)
Definition PROMPT_OPTIONS_getitem (k : str) : M str :=
  fun s => match dict_get (g_PROMPT_OPTIONS s) k with
           | Some v => (Ok v, s)
           | None => (Raise (KeyError k), s)
           end.

(** The expression [os.getenv("GEMINI_API_KEY") or os.getenv("GOOGLE_API_KEY")]
    on a given environment. *)
Definition resolve_key (env : gmap str str) : option str :=
  py_or (env !! py "GEMINI_API_KEY") (env !! py "GOOGLE_API_KEY").

Definition getenv_key : M (option str) :=
  a <- os_getenv (py "GEMINI_API_KEY") ;;
  b <- os_getenv (py "GOOGLE_API_KEY") ;;
  ret (py_or a b).

(** The state of a fresh process on the environment it finds (after
    [load_dotenv]): nothing rendered, nothing sent, and the globals as
    lines 12 and 15 bind them from the argument of line 12.  Whether the
    constructor accepts that argument is [genai_Client]'s part: an
    execution goes through [bind_globals] before anything uses the
    client. *)
Definition startup (env : gmap str str) : state :=
  {| environ := env;
     g_client := {| api_key := resolve_key env |};
     g_PROMPT_OPTIONS := PROMPT_OPTIONS;
     page := [];
     sent := [] |}.

(** [genai.Client(api_key=k)] at line 12.  Given no key, the constructor
    looks in the environment for the same two variables and raises
    [ValueError] when it finds none ([None] here); at line 12 the
    argument is falsy exactly when both variables are, so the call
    returns exactly when the argument is a non-empty key. *)
Definition genai_Client (k : option str) : option Client :=
  if truthy_opt k then Some {| api_key := k |} else None.

(** Lines 12 to 22, run at the start of every execution of the script on
    the environment of the moment: they bind [client] and
    [PROMPT_OPTIONS] anew, or stop the execution when the constructor
    raises. *)
Definition bind_globals (s : state) : option state :=
  match genai_Client (resolve_key (environ s)) with
  | Some c =>
      Some {| environ := environ s;
              g_client := c;
              g_PROMPT_OPTIONS := PROMPT_OPTIONS;
              page := page s;
              sent := sent s |}
  | None => None
  end.

(** Elements that show a result: the heading and the body. *)
Definition is_result (e : element) : bool :=
  match e with
  | st_subheader _ | st_markdown _ => true
  | st_error _ | st_spinner _ => false
  end.

(** The configuration contract in the specification's words: among the
    candidate values, in order, the first one that is set and non-empty;
    [None] when there is none. *)
Fixpoint first_non_empty (candidates : list (option str)) : option str :=
  match candidates with
  | [] => None
  | Some (c :: v) :: _ => Some (c :: v)
  | _ :: rest => first_non_empty rest
  end.

(** ** Sample data for concrete runs *)

(** A complete PNG file: one grey pixel (signature, IHDR, IDAT, IEND). *)
Definition sample_png : UploadedFile :=
  {| getvalue :=
       [137; 80; 78; 71; 13; 10; 26; 10;
        0; 0; 0; 13; 73; 72; 68; 82; 0; 0; 0; 1; 0; 0; 0; 1; 8; 0; 0; 0; 0;
        58; 126; 155; 85;
        0; 0; 0; 10; 73; 68; 65; 84; 120; 218; 99; 104; 0; 0; 0; 130; 0; 129;
        218; 69; 8; 59;
        0; 0; 0; 0; 73; 69; 78; 68; 174; 66; 96; 130];
     type := py "image/png" |}.

Definition env_primary : gmap str str :=
  {[ py "GEMINI_API_KEY" := py "k-primary" ]}.

Definition env_fallback : gmap str str :=
  <[ py "GEMINI_API_KEY" := [] ]> {[ py "GOOGLE_API_KEY" := py "k-fallback" ]}.

Definition endpoint_axe (_ : list request) (_ : request) : outcome str :=
  Ok (py "A bronze axe head.").

Definition endpoint_quota (_ : list request) (_ : request) : outcome str :=
  Raise (GenerationError (py "quota exceeded")).

(** A stand-in for [Image.open] that reads the one file above and
    refuses every other content. *)
Definition Image_open_sample (f : UploadedFile) : option bytes :=
  if decide (getvalue f = getvalue sample_png) then Some (getvalue f)
  else None.

(** [repr] on strings free of quotes, backslashes and control
    characters. *)
Definition repr_quoted (s : str) : str := py "'" ++ s ++ py "'".

Section App.

(** The hosted endpoint: given the requests made so far and a new
    request, it answers with the response text or fails. *)
Variable endpoint : list request -> request -> outcome str.

(** The builtin [repr] on strings ([str] of a [KeyError] is the [repr]
    of its key). *)
Variable repr : str -> str.

Definition str_of_exception (e : exception) : str :=
  match e with
  | KeyError k => repr k
  | GenerationError m => m
  end.

(** [c.models.generate_content(model=m, contents=[p, part]).text] *)
Definition generate_content (c : Client) (m : str) (cs : str * Part) : M str :=
  fun s =>
    let r := {| via := c; model := m; contents := cs |} in
    (endpoint (sent s) r,
     {| environ := environ s; g_client := g_client s;
        g_PROMPT_OPTIONS := g_PROMPT_OPTIONS s;
        page := page s; sent := sent s ++ [r] |}).

Definition get_gemini_response
    (input_text : str) (image_bytes : bytes) (mime_type : str) (prompt : str)
  : M str :=
  let full_prompt := full_prompt input_text prompt in
  let image_part := {| data := image_bytes; mime_type := mime_type |} in
  client <- read_client ;;
  generate_content client (py "gemini-3-flash-preview")
                   (full_prompt, image_part).

(** The body of [if submit:], given the values the three input widgets
    hold. *)
Definition submit_handler
    (uploaded_file : option UploadedFile) (prompt_choice : str)
    (input_text : option str) : M unit :=
  api_key <- getenv_key ;;
  if negb (truthy_opt api_key) then
    render (st_error (py "Add GEMINI_API_KEY or GOOGLE_API_KEY to your .env file."))
  else
    match uploaded_file with
    | None => render (st_error (py "Please upload an image first."))
    | Some uploaded_file =>
        render (st_spinner (py "Analyzing artifact...")) ;;;
        try_except
          (let image_bytes := getvalue uploaded_file in
           selected_prompt <- PROMPT_OPTIONS_getitem prompt_choice ;;
           response <- get_gemini_response
                         (default [] input_text) image_bytes
                         (type uploaded_file) selected_prompt ;;
           render (st_subheader ([128220] ++ py " Result: " ++ prompt_choice)) ;;;
           render (st_markdown (py "---")) ;;;
           render (st_markdown response))
          (fun e => render (st_error (py "Error: " ++ str_of_exception e)))
    end.

(** What happens during a session: the environment is changed from
    outside the script, or the user presses the button and the script is
    executed again, from its first line, with the widgets holding some
    values.  A [Submit] stands for an execution that gets past the
    preview of the upload; one that stops there renders nothing more and
    sends nothing. *)
Inductive event :=
| EnvChange (env : gmap str str)
| Submit (uploaded_file : option UploadedFile) (prompt_choice : str)
         (input_text : option str).

Definition step (s : state) (ev : event) : state :=
  match ev with
  | EnvChange env =>
      {| environ := env; g_client := g_client s;
         g_PROMPT_OPTIONS := g_PROMPT_OPTIONS s;
         page := page s; sent := sent s |}
  | Submit f c t =>
      match bind_globals s with
      | Some s0 => snd (submit_handler f c t s0)
      | None => s
      end
  end.

Definition run (evs : list event) (s : state) : state :=
  fold_left step evs s.

(** The request built by [get_gemini_response] from the widget values. *)
Definition request_of (s : state) (f : UploadedFile) (t : option str)
    (tpl : str) : request :=
  {| via := g_client s;
     model := py "gemini-3-flash-preview";
     contents := (full_prompt (default [] t) tpl,
                  {| data := getvalue f; mime_type := type f |}) |}.

(** The state after rendering [es] and sending [rs]. *)
Definition with_output (s : state) (es : list element) (rs : list request)
  : state :=
  {| environ := environ s; g_client := g_client s;
     g_PROMPT_OPTIONS := g_PROMPT_OPTIONS s;
     page := page s ++ es; sent := sent s ++ rs |}.

(** Elements that report an error. *)
Definition is_error (e : element) : bool :=
  match e with
  | st_error _ => true
  | st_spinner _ | st_subheader _ | st_markdown _ => false
  end.

Definition is_submit (ev : event) : bool :=
  match ev with
  | Submit _ _ _ => true
  | EnvChange _ => false
  end.

Fixpoint count_submits (evs : list event) : nat :=
  match evs with
  | [] => 0%nat
  | ev :: evs' => ((if is_submit ev then 1 else 0) + count_submits evs')%nat
  end.

(** ** One execution of the script

    The statements that carry data or decide control: the bindings of
    the globals, the preview of the upload and the test of the button.
    The statements that only lay out fixed text (page configuration,
    title, section headings, divider) are left out, and the environment
    is the same throughout the execution. *)

Section Script.

(** A decoded picture, and [Image.open], which raises on a file it
    cannot read ([None]). *)
Variable Image : Type.
Variable Image_open : UploadedFile -> option Image.

Inductive preview_element :=
| st_image (image : Image) (caption : str) (width : N)
| st_info (body : str).

Inductive termination :=
| Finished
| Crashed.

Definition IMAGE_DISPLAY_WIDTH : N := 500.

(** [if uploaded_file is not None: ... else: st.info(...)] *)
Definition show_upload (uploaded_file : option UploadedFile)
  : option preview_element :=
  match uploaded_file with
  | Some f =>
      match Image_open f with
      | Some image =>
          Some (st_image image (py "Uploaded artifact image")
                         IMAGE_DISPLAY_WIDTH)
      | None => None
      end
  | None =>
      Some (st_info (py "Upload an image of a historical artifact to get started."))
  end.

(** The script on the values its widgets return: the uploaded file, the
    label held by the select box, the text area's content and whether
    the button was pressed.  An exception that nothing catches ends the
    execution. *)
Definition script (env : gmap str str)
    (uploaded_file : option UploadedFile) (prompt_choice : str)
    (input_text : option str) (submit : bool)
  : termination * list preview_element * state :=
  match bind_globals (startup env) with
  | None => (Crashed, [], startup env)
  | Some s =>
      match show_upload uploaded_file with
      | None => (Crashed, [], s)
      | Some p =>
          if submit then
            match submit_handler uploaded_file prompt_choice input_text s with
            | (Ok _, s') => (Finished, [p], s')
            | (Raise _, s') => (Crashed, [p], s')
            end
          else (Finished, [p], s)
      end
  end.

End Script.

(** ** Facts about [strip] *)

Lemma lstrip_nil_iff (s : str) : lstrip s = [] <-> forallb isspace s = true.
Proof.
  induction s as [|c s IH]; simpl; [tauto|].
  destruct (isspace c); simpl; [exact IH|].
  split; discriminate.
Qed.

Lemma lstrip_head (s : str) :
  match lstrip s with [] => True | c :: _ => isspace c = false end.
Proof.
  induction s as [|c s IH]; simpl; [exact I|].
  destruct (isspace c) eqn:E; [exact IH | exact E].
Qed.

Lemma forallb_isspace_rev (s : str) :
  forallb isspace (rev s) = forallb isspace s.
Proof.
  induction s as [|c s IH]; simpl; [reflexivity|].
  rewrite forallb_app, IH. simpl. rewrite andb_true_r. apply andb_comm.
Qed.

Lemma rstrip_nil_iff (s : str) : rstrip s = [] <-> forallb isspace s = true.
Proof.
  unfold rstrip. rewrite <- forallb_isspace_rev, <- lstrip_nil_iff.
  split; intros H.
  - apply (f_equal (@rev N)) in H. rewrite rev_involutive in H. exact H.
  - rewrite H. reflexivity.
Qed.

Lemma strip_nil_iff (s : str) : strip s = [] <-> forallb isspace s = true.
Proof.
  unfold strip. rewrite rstrip_nil_iff.
  transitivity (lstrip s = []); [|apply lstrip_nil_iff].
  pose proof (lstrip_head s) as Hh.
  destruct (lstrip s) as [|c t]; simpl in *; [split; reflexivity|].
  rewrite Hh. simpl. split; discriminate.
Qed.

Lemma truthy_false_iff (s : str) : truthy s = false <-> s = [].
Proof. destruct s; simpl; split; congruence. Qed.

Example strip_both_ends : strip (py "  a b  ") = py "a b".
Proof. reflexivity. Qed.

Example strip_unicode_blank : strip [9; 160; 8232; 12288] = [].
Proof. reflexivity. Qed.

Example full_prompt_keeps_outer_blanks :
  full_prompt (py " x ") (py "T") =
  py "T" ++ [10; 10] ++ py "Additional context from user:  x ".
Proof. reflexivity. Qed.

(** ** The shape of one submission *)

Lemma getenv_key_eq (s : state) :
  getenv_key s = (Ok (resolve_key (environ s)), s).
Proof. reflexivity. Qed.

Lemma submit_no_key f c t s :
  truthy_opt (resolve_key (environ s)) = false ->
  submit_handler f c t s =
  (Ok tt, with_output s
     [st_error (py "Add GEMINI_API_KEY or GOOGLE_API_KEY to your .env file.")]
     []).
Proof.
  intros Hk. unfold submit_handler, bind. rewrite getenv_key_eq, Hk.
  unfold render, with_output. cbn [negb]. rewrite app_nil_r. reflexivity.
Qed.

Lemma submit_no_file c t s :
  truthy_opt (resolve_key (environ s)) = true ->
  submit_handler None c t s =
  (Ok tt, with_output s [st_error (py "Please upload an image first.")] []).
Proof.
  intros Hk. unfold submit_handler, bind. rewrite getenv_key_eq, Hk.
  unfold render, with_output. cbn [negb]. rewrite app_nil_r. reflexivity.
Qed.

Lemma submit_key_error f c t s :
  truthy_opt (resolve_key (environ s)) = true ->
  dict_get (g_PROMPT_OPTIONS s) c = None ->
  submit_handler (Some f) c t s =
  (Ok tt, with_output s
     [st_spinner (py "Analyzing artifact...");
      st_error (py "Error: " ++ repr c)] []).
Proof.
  intros Hk Hd. unfold submit_handler, bind. rewrite getenv_key_eq, Hk.
  cbn [negb]. unfold try_except, bind, PROMPT_OPTIONS_getitem, render.
  cbn [page sent environ g_client g_PROMPT_OPTIONS]. rewrite Hd.
  unfold with_output. cbn [page sent environ g_client g_PROMPT_OPTIONS
    str_of_exception]. rewrite app_nil_r, <- app_assoc. reflexivity.
Qed.

Lemma submit_failure f c t s tpl e :
  truthy_opt (resolve_key (environ s)) = true ->
  dict_get (g_PROMPT_OPTIONS s) c = Some tpl ->
  endpoint (sent s) (request_of s f t tpl) = Raise e ->
  submit_handler (Some f) c t s =
  (Ok tt, with_output s
     [st_spinner (py "Analyzing artifact...");
      st_error (py "Error: " ++ str_of_exception e)]
     [request_of s f t tpl]).
Proof.
  intros Hk Hd He. unfold submit_handler, bind. rewrite getenv_key_eq, Hk.
  cbn [negb]. unfold try_except, bind, PROMPT_OPTIONS_getitem, render.
  cbn [page sent environ g_client g_PROMPT_OPTIONS]. rewrite Hd.
  unfold get_gemini_response, bind, read_client, generate_content.
  cbn [page sent environ g_client g_PROMPT_OPTIONS].
  unfold request_of in He. rewrite He.
  unfold with_output, request_of.
  cbn [page sent environ g_client g_PROMPT_OPTIONS].
  rewrite <- app_assoc. reflexivity.
Qed.

Lemma submit_success f c t s tpl txt :
  truthy_opt (resolve_key (environ s)) = true ->
  dict_get (g_PROMPT_OPTIONS s) c = Some tpl ->
  endpoint (sent s) (request_of s f t tpl) = Ok txt ->
  submit_handler (Some f) c t s =
  (Ok tt, with_output s
     [st_spinner (py "Analyzing artifact...");
      st_subheader ([128220] ++ py " Result: " ++ c);
      st_markdown (py "---");
      st_markdown txt]
     [request_of s f t tpl]).
Proof.
  intros Hk Hd He. unfold submit_handler, bind. rewrite getenv_key_eq, Hk.
  cbn [negb]. unfold try_except, bind, PROMPT_OPTIONS_getitem, render.
  cbn [page sent environ g_client g_PROMPT_OPTIONS]. rewrite Hd.
  unfold get_gemini_response, bind, read_client, generate_content.
  cbn [page sent environ g_client g_PROMPT_OPTIONS].
  unfold request_of in He. rewrite He.
  unfold with_output, request_of.
  cbn [page sent environ g_client g_PROMPT_OPTIONS].
  rewrite <- !app_assoc. reflexivity.
Qed.

(** Every submission ends normally, only adds to the page and to the
    request log, and sends at most one request, through the global
    client. *)
Lemma submit_handler_cases f c t s :
  exists es rs,
    submit_handler f c t s = (Ok tt, with_output s es rs)
    /\ (rs = [] \/ exists r, rs = [r] /\ via r = g_client s).
Proof.
  destruct (truthy_opt (resolve_key (environ s))) eqn:Hk.
  - destruct f as [f|].
    + destruct (dict_get (g_PROMPT_OPTIONS s) c) as [tpl|] eqn:Hd.
      * destruct (endpoint (sent s) (request_of s f t tpl)) as [txt|e] eqn:He.
        -- eexists _, _. split; [apply (submit_success _ _ _ _ _ _ Hk Hd He)|].
           right. eexists. split; reflexivity.
        -- eexists _, _. split; [apply (submit_failure _ _ _ _ _ _ Hk Hd He)|].
           right. eexists. split; reflexivity.
      * eexists _, _. split; [apply (submit_key_error _ _ _ _ Hk Hd)|].
        left. reflexivity.
    + eexists _, _. split; [apply (submit_no_file _ _ _ Hk)|]. left. reflexivity.
  - eexists _, _. split; [apply (submit_no_key _ _ _ _ Hk)|]. left. reflexivity.
Qed.

(** The requests a submission adds once validation has passed. *)
Lemma submit_sent_new f c t s :
  truthy_opt (resolve_key (environ s)) = true ->
  sent (submit_handler (Some f) c t s).2 =
  sent s ++ match dict_get (g_PROMPT_OPTIONS s) c with
            | Some tpl => [request_of s f t tpl]
            | None => []
            end.
Proof.
  intros Hk.
  destruct (dict_get (g_PROMPT_OPTIONS s) c) as [tpl|] eqn:Hd.
  - destruct (endpoint (sent s) (request_of s f t tpl)) as [txt|e] eqn:He.
    + rewrite (submit_success _ _ _ _ _ _ Hk Hd He). reflexivity.
    + rewrite (submit_failure _ _ _ _ _ _ Hk Hd He). reflexivity.
  - rewrite (submit_key_error _ _ _ _ Hk Hd). reflexivity.
Qed.

(** ** Rebinding the globals *)

Lemma bind_globals_Some s s0 :
  bind_globals s = Some s0 ->
  truthy_opt (resolve_key (environ s)) = true
  /\ s0 = {| environ := environ s;
             g_client := {| api_key := resolve_key (environ s) |};
             g_PROMPT_OPTIONS := PROMPT_OPTIONS;
             page := page s;
             sent := sent s |}.
Proof.
  unfold bind_globals, genai_Client.
  destruct (truthy_opt (resolve_key (environ s))); intros H;
    inversion H; auto.
Qed.

Lemma bind_globals_None s :
  bind_globals s = None -> truthy_opt (resolve_key (environ s)) = false.
Proof.
  unfold bind_globals, genai_Client.
  destruct (truthy_opt (resolve_key (environ s))); [discriminate | reflexivity].
Qed.

Lemma bind_globals_startup env :
  truthy_opt (resolve_key env) = true ->
  bind_globals (startup env) = Some (startup env).
Proof.
  intros Hk. unfold bind_globals, genai_Client. simpl. rewrite Hk. reflexivity.
Qed.

Lemma step_catalog s ev :
  g_PROMPT_OPTIONS s = PROMPT_OPTIONS ->
  g_PROMPT_OPTIONS (step s ev) = PROMPT_OPTIONS.
Proof.
  intros Hs. destruct ev as [env|f c t]; simpl; [exact Hs|].
  destruct (bind_globals s) as [s0|] eqn:Hb; [|exact Hs].
  apply bind_globals_Some in Hb as [_ ->].
  match goal with |- context [submit_handler f c t ?s0] =>
    destruct (submit_handler_cases f c t s0) as (es & rs & -> & _) end.
  reflexivity.
Qed.

Lemma run_catalog evs s :
  g_PROMPT_OPTIONS s = PROMPT_OPTIONS ->
  g_PROMPT_OPTIONS (run evs s) = PROMPT_OPTIONS.
Proof.
  revert s. induction evs as [|ev evs IH]; intros s Hs; [exact Hs|].
  simpl. apply IH, step_catalog, Hs.
Qed.

(** The request an execution sends, as a function of the environment of
    the moment and of the widget values. *)
Lemma step_submit_sent s f c t :
  sent (step s (Submit f c t)) =
  sent s ++
    match f, dict_get PROMPT_OPTIONS c with
    | Some uf, Some tpl =>
        if truthy_opt (resolve_key (environ s)) then
          [{| via := {| api_key := resolve_key (environ s) |};
              model := py "gemini-3-flash-preview";
              contents := (full_prompt (default [] t) tpl,
                           {| data := getvalue uf; mime_type := type uf |}) |}]
        else []
    | _, _ => []
    end.
Proof.
  unfold step. destruct (bind_globals s) as [s0|] eqn:Hb.
  - apply bind_globals_Some in Hb as [Hk ->]. rewrite Hk.
    match goal with |- context [submit_handler f c t ?s0] => set (s1 := s0) end.
    destruct f as [uf|].
    + rewrite (submit_sent_new uf c t s1 Hk).
      change (g_PROMPT_OPTIONS s1) with PROMPT_OPTIONS.
      change (sent s1) with (sent s).
      destruct (dict_get PROMPT_OPTIONS c); reflexivity.
    + rewrite (submit_no_file c t s1 Hk). reflexivity.
  - apply bind_globals_None in Hb. rewrite Hb.
    destruct f; [destruct (dict_get PROMPT_OPTIONS c)|];
      symmetry; apply app_nil_r.
Qed.

Lemma step_submit_environ s f c t :
  environ (step s (Submit f c t)) = environ s.
Proof.
  simpl. destruct (bind_globals s) as [s0|] eqn:Hb; [|reflexivity].
  apply bind_globals_Some in Hb as [_ ->].
  match goal with |- context [submit_handler f c t ?s0] =>
    destruct (submit_handler_cases f c t s0) as (es & rs & -> & _) end.
  reflexivity.
Qed.

Lemma step_sent_Forall (P : request -> Prop) s ev :
  (forall uf t tpl,
     truthy_opt (resolve_key (environ s)) = true ->
     P {| via := {| api_key := resolve_key (environ s) |};
          model := py "gemini-3-flash-preview";
          contents := (full_prompt (default [] t) tpl,
                       {| data := getvalue uf; mime_type := type uf |}) |}) ->
  Forall P (sent s) -> Forall P (sent (step s ev)).
Proof.
  intros HP Hs. destruct ev as [env|f c t]; [exact Hs|].
  rewrite step_submit_sent. apply Forall_app. split; [exact Hs|].
  destruct f as [uf|]; [|constructor].
  destruct (dict_get PROMPT_OPTIONS c) as [tpl|]; [|constructor].
  destruct (truthy_opt (resolve_key (environ s))) eqn:Hk; [|constructor].
  constructor; [apply HP; reflexivity | constructor].
Qed.

Lemma run_app evs1 evs2 s : run (evs1 ++ evs2) s = run evs2 (run evs1 s).
Proof. apply fold_left_app. Qed.

(** A key of the dictionary can be looked up. *)
Lemma dict_get_keys (d : list (str * str)) (k : str) :
  k ∈ keys d -> exists v, dict_get d k = Some v.
Proof.
  induction d as [|[k' v] d IH]; simpl; intros Hin.
  - inversion Hin.
  - destruct (decide (k' = k)) as [_|Hne]; [eauto|].
    apply IH. inversion Hin; subst; [congruence | assumption].
Qed.

Lemma selectbox_elem (options : list str) index pick label :
  selectbox options index pick = Some label -> label ∈ options.
Proof. unfold selectbox. apply list_elem_of_lookup_2. Qed.

(** ** The query composer *)

(** C1. When the trimmed free text is non-empty, the composed prompt is
    the template, a blank line, the label "Additional context from
    user: " and the free text as typed. *)
Theorem full_prompt_with_context (input_text prompt : str) :
  strip input_text <> [] ->
  full_prompt input_text prompt =
  prompt ++ [10; 10] ++ py "Additional context from user: " ++ input_text.
Proof.
  intros Hne. unfold full_prompt.
  destruct (truthy (strip input_text)) eqn:Ht; [reflexivity|].
  apply truthy_false_iff in Ht. contradiction.
Qed.

(** C2. When the free text is empty or made of whitespace only, the
    composed prompt is the template itself, with nothing appended. *)
Theorem full_prompt_blank (input_text prompt : str) :
  input_text = [] \/ forallb isspace input_text = true ->
  full_prompt input_text prompt = prompt.
Proof.
  intros H.
  assert (Hs : strip input_text = []).
  { apply strip_nil_iff. destruct H as [->|H]; [reflexivity | exact H]. }
  unfold full_prompt. rewrite Hs. reflexivity.
Qed.

(** ** Validation *)


(** C4. With a key resolved and no file uploaded the submission renders
    the input error and sends no request. *)
Theorem submit_without_image
    (prompt_choice : str) (input_text : option str) (s : state) :
  truthy_opt (resolve_key (environ s)) = true ->
  let r := submit_handler None prompt_choice input_text s in
  r.1 = Ok tt
  /\ page r.2 = page s ++ [st_error (py "Please upload an image first.")]
  /\ sent r.2 = sent s.
Proof.
  intros Hk r. subst r. rewrite (submit_no_file _ _ _ Hk). simpl.
  rewrite app_nil_r. auto.
Qed.

(** ** Generation *)

(** C5. When the remote call fails with message m, the handler still
    ends normally, and what it renders is the busy indicator and one
    error whose text is "Error: " followed by m; no heading and no body
    is rendered. *)
Theorem submit_generation_failure
    (f : UploadedFile) (prompt_choice : str) (input_text : option str)
    (s : state) (tpl : str) (m : str) :
  truthy_opt (resolve_key (environ s)) = true ->
  dict_get (g_PROMPT_OPTIONS s) prompt_choice = Some tpl ->
  endpoint (sent s) (request_of s f input_text tpl)
  = Raise (GenerationError m) ->
  let r := submit_handler (Some f) prompt_choice input_text s in
  r.1 = Ok tt
  /\ page r.2 = page s ++
       [st_spinner (py "Analyzing artifact..."); st_error (py "Error: " ++ m)]
  /\ (forall x, x ∈ drop (length (page s)) (page r.2) -> is_result x = false).
Proof.
  intros Hk Hd He r. subst r.
  rewrite (submit_failure _ _ _ _ _ _ Hk Hd He). simpl.
  split; [reflexivity|]. split; [reflexivity|].
  intros x. rewrite drop_app_length. intros Hx.
  apply elem_of_cons in Hx as [->|Hx]; [reflexivity|].
  apply elem_of_cons in Hx as [->|Hx]; [reflexivity|].
  inversion Hx.
Qed.

(** C8, as the code has it. With a key resolved, a file uploaded, the
    option "Identify & Classify" and empty free text, exactly one request
    is sent, whatever the endpoint answers, carrying the catalog's
    template for that option unchanged and the file's bytes; and when the
    endpoint answers with text t, the page gets the heading made of the
    scroll sign, " Result: " and the label, then a horizontal rule, then
    t as the body. *)
Theorem submit_identify_success
    (f : UploadedFile) (input_text : option str) (s : state) (tpl : str) :
  truthy_opt (resolve_key (environ s)) = true ->
  g_PROMPT_OPTIONS s = PROMPT_OPTIONS ->
  default [] input_text = [] ->
  dict_get PROMPT_OPTIONS (py "Identify & Classify") = Some tpl ->
  let q := {| via := g_client s;
              model := py "gemini-3-flash-preview";
              contents := (tpl, {| data := getvalue f;
                                   mime_type := type f |}) |} in
  let r := submit_handler (Some f) (py "Identify & Classify") input_text s in
  r.1 = Ok tt
  /\ sent r.2 = sent s ++ [q]
  /\ (forall t,
        endpoint (sent s) q = Ok t ->
        page r.2 = page s ++
          [st_spinner (py "Analyzing artifact...");
           st_subheader ([128220] ++ py " Result: Identify & Classify");
           st_markdown (py "---");
           st_markdown t]).
Proof.
  intros Hk Hg Ht Hd q r. subst r.
  assert (Hq : request_of s f input_text tpl = q).
  { unfold request_of, q. rewrite Ht. reflexivity. }
  rewrite <- Hg in Hd.
  split; [|split].
  - destruct (submit_handler_cases (Some f) (py "Identify & Classify")
                input_text s) as (es & rs & -> & _). reflexivity.
  - rewrite (submit_sent_new _ _ _ _ Hk), Hd, Hq. reflexivity.
  - intros t He. rewrite <- Hq in He.
    rewrite (submit_success _ _ _ _ _ _ Hk Hd He). reflexivity.
Qed.

(** C10. A label coming from the select box, whose options are the keys
    of the catalog, is found in the catalog: in the generation branch the
    lookup yields a template and the request is sent with it. *)
Theorem selected_label_lookup_succeeds
    (f : UploadedFile) (input_text : option str) (s : state)
    (pick : option nat) (prompt_choice : str) :
  truthy_opt (resolve_key (environ s)) = true ->
  selectbox (keys (g_PROMPT_OPTIONS s)) 0 pick = Some prompt_choice ->
  exists tpl,
    PROMPT_OPTIONS_getitem prompt_choice s = (Ok tpl, s)
    /\ sent (submit_handler (Some f) prompt_choice input_text s).2
       = sent s ++ [request_of s f input_text tpl].
Proof.
  intros Hk Hsel.
  apply selectbox_elem, dict_get_keys in Hsel as [tpl Hd].
  exists tpl. split.
  - unfold PROMPT_OPTIONS_getitem. rewrite Hd. reflexivity.
  - destruct (endpoint (sent s) (request_of s f input_text tpl))
      as [txt|e] eqn:He.
    + rewrite (submit_success _ _ _ _ _ _ Hk Hd He). reflexivity.
    + rewrite (submit_failure _ _ _ _ _ _ Hk Hd He). reflexivity.
Qed.

(** ** Globals *)

(** C7. The catalog has six entries, in the order of the source; no
    sequence of events changes it; and the select box, left untouched,
    holds the first label. *)
Theorem catalog_six_fixed :
  length PROMPT_OPTIONS = 6%nat
  /\ keys PROMPT_OPTIONS =
     [py "Describe"; py "Identify & Classify"; py "Historical Context";
      py "Origin & Significance"; py "Cultural Analysis";
      py "Conservation & Condition"]
  /\ (forall env evs,
        g_PROMPT_OPTIONS (run evs (startup env)) = PROMPT_OPTIONS)
  /\ (forall env evs,
        selectbox (keys (g_PROMPT_OPTIONS (run evs (startup env)))) 0 None
        = head (keys PROMPT_OPTIONS))
  /\ head (keys PROMPT_OPTIONS) = Some (py "Describe").
Proof.
  split; [reflexivity|]. split; [reflexivity|].
  assert (H : forall env evs,
             g_PROMPT_OPTIONS (run evs (startup env)) = PROMPT_OPTIONS).
  { intros env evs. apply run_catalog. reflexivity. }
  split; [exact H|]. split; [|reflexivity].
  intros env evs. rewrite H. reflexivity.
Qed.

(** ** More on one submission *)

Lemma rendered_with_output s es rs :
  drop (length (page s)) (page (with_output s es rs)) = es.
Proof. simpl. apply drop_app_length. Qed.

Lemma app_singleton_neq {A} (l : list A) (x : A) : l ++ [x] <> l.
Proof.
  intros H. apply (f_equal length) in H. rewrite length_app in H.
  simpl in H. lia.
Qed.

(** X1. A label that is not a key of the catalog makes the lookup raise
    inside the [try]: the handler ends normally, renders the busy
    indicator and "Error: " followed by the [repr] of the label, and
    sends no request. *)
Theorem submit_unknown_label
    (f : UploadedFile) (prompt_choice : str) (input_text : option str)
    (s : state) :
  truthy_opt (resolve_key (environ s)) = true ->
  prompt_choice ∉ keys (g_PROMPT_OPTIONS s) ->
  let r := submit_handler (Some f) prompt_choice input_text s in
  r.1 = Ok tt
  /\ page r.2 = page s ++
       [st_spinner (py "Analyzing artifact...");
        st_error (py "Error: " ++ repr prompt_choice)]
  /\ sent r.2 = sent s.
Proof.
  intros Hk Hnot r. subst r.
  assert (Hd : dict_get (g_PROMPT_OPTIONS s) prompt_choice = None).
  { destruct (dict_get (g_PROMPT_OPTIONS s) prompt_choice) as [v|] eqn:Hd;
      [|reflexivity].
    exfalso. apply Hnot. clear -Hd.
    induction (g_PROMPT_OPTIONS s) as [|[k' v'] d IH]; simpl in *;
      [discriminate|].
    destruct (decide (k' = prompt_choice)) as [->|_];
      [apply list_elem_of_here | apply list_elem_of_further, IH, Hd]. }
  rewrite (submit_key_error _ _ _ _ Hk Hd). simpl.
  rewrite app_nil_r. auto.
Qed.

(** X2. Whatever the widgets hold and whatever the endpoint does, the
    handler ends normally; it leaves the environment, the client and the
    catalog as they were, only adds to the page, and adds at most one
    request to the log. *)
Theorem submit_handler_safe
    (uploaded_file : option UploadedFile) (prompt_choice : str)
    (input_text : option str) (s : state) :
  let r := submit_handler uploaded_file prompt_choice input_text s in
  r.1 = Ok tt
  /\ environ r.2 = environ s
  /\ g_client r.2 = g_client s
  /\ g_PROMPT_OPTIONS r.2 = g_PROMPT_OPTIONS s
  /\ page s `prefix_of` page r.2
  /\ sent s `prefix_of` sent r.2
  /\ (length (sent r.2) <= length (sent s) + 1)%nat.
Proof.
  intros r. subst r.
  destruct (submit_handler_cases uploaded_file prompt_choice input_text s)
    as (es & rs & -> & Hrs).
  simpl. repeat split.
  - exists es. reflexivity.
  - exists rs. reflexivity.
  - rewrite length_app.
    destruct Hrs as [->|(q & -> & _)]; simpl; lia.
Qed.

(** X3. A request is sent exactly when a key is resolved, a file is
    uploaded and the label is a key of the catalog; the endpoint's
    answer plays no part in it. *)
Theorem request_sent_iff
    (uploaded_file : option UploadedFile) (prompt_choice : str)
    (input_text : option str) (s : state) :
  let s' := (submit_handler uploaded_file prompt_choice input_text s).2 in
  sent s' <> sent s <->
  truthy_opt (resolve_key (environ s)) = true
  /\ is_Some uploaded_file
  /\ is_Some (dict_get (g_PROMPT_OPTIONS s) prompt_choice).
Proof.
  intros s'. subst s'.
  destruct (truthy_opt (resolve_key (environ s))) eqn:Hk.
  - destruct uploaded_file as [f|].
    + destruct (dict_get (g_PROMPT_OPTIONS s) prompt_choice) as [tpl|] eqn:Hd.
      * assert (Hs : sent (submit_handler (Some f) prompt_choice input_text s).2
                     = sent s ++ [request_of s f input_text tpl]).
        { destruct (endpoint (sent s) (request_of s f input_text tpl))
            as [txt|e] eqn:He.
          - rewrite (submit_success _ _ _ _ _ _ Hk Hd He). reflexivity.
          - rewrite (submit_failure _ _ _ _ _ _ Hk Hd He). reflexivity. }
        rewrite Hs. split.
        -- intros _. repeat split; eexists; reflexivity.
        -- intros _. apply app_singleton_neq.
      * rewrite (submit_key_error _ _ _ _ Hk Hd). simpl. rewrite app_nil_r.
        split; [congruence|]. intros (_ & _ & [v Hv]). discriminate.
    + rewrite (submit_no_file _ _ _ Hk). simpl. rewrite app_nil_r.
      split; [congruence|]. intros (_ & [v Hv] & _). discriminate.
  - rewrite (submit_no_key _ _ _ _ Hk). simpl. rewrite app_nil_r.
    split; [congruence|]. intros (Hf & _). discriminate.
Qed.

(** X4. A submission renders either exactly one error and no heading or
    body, or no error and the full result: busy indicator, heading, rule
    and body.  It never shows both, and never a heading without its
    body. *)
Theorem error_xor_result
    (uploaded_file : option UploadedFile) (prompt_choice : str)
    (input_text : option str) (s : state) :
  let s' := (submit_handler uploaded_file prompt_choice input_text s).2 in
  let es := drop (length (page s)) (page s') in
  (length (List.filter is_error es) = 1%nat /\ List.filter is_result es = [])
  \/ (List.filter is_error es = []
      /\ exists txt,
           es = [st_spinner (py "Analyzing artifact...");
                 st_subheader ([128220] ++ py " Result: " ++ prompt_choice);
                 st_markdown (py "---");
                 st_markdown txt]).
Proof.
  intros s' es. subst s' es.
  destruct (truthy_opt (resolve_key (environ s))) eqn:Hk.
  - destruct uploaded_file as [f|].
    + destruct (dict_get (g_PROMPT_OPTIONS s) prompt_choice) as [tpl|] eqn:Hd.
      * destruct (endpoint (sent s) (request_of s f input_text tpl))
          as [txt|e] eqn:He.
        -- rewrite (submit_success _ _ _ _ _ _ Hk Hd He).
           cbn [snd]. rewrite rendered_with_output.
           right. split; [reflexivity|]. exists txt. reflexivity.
        -- rewrite (submit_failure _ _ _ _ _ _ Hk Hd He).
           cbn [snd]. rewrite rendered_with_output.
           left. split; reflexivity.
      * rewrite (submit_key_error _ _ _ _ Hk Hd).
        cbn [snd]. rewrite rendered_with_output. left. split; reflexivity.
    + rewrite (submit_no_file _ _ _ Hk).
      cbn [snd]. rewrite rendered_with_output. left. split; reflexivity.
  - rewrite (submit_no_key _ _ _ _ Hk).
    cbn [snd]. rewrite rendered_with_output. left. split; reflexivity.
Qed.

Lemma full_prompt_forallb (input_text prompt : str) :
  full_prompt input_text prompt =
  if forallb isspace input_text then prompt
  else prompt ++ [10; 10] ++ py "Additional context from user: " ++ input_text.
Proof.
  unfold full_prompt.
  destruct (forallb isspace input_text) eqn:Hb.
  - apply strip_nil_iff in Hb. rewrite Hb. reflexivity.
  - destruct (truthy (strip input_text)) eqn:Ht; [reflexivity|].
    apply truthy_false_iff, strip_nil_iff in Ht. congruence.
Qed.


(** X5. On success with any label of the catalog and any free text, the
    model receives the template alone when the text is blank, and the
    template, a blank line, the label and the text as typed otherwise,
    together with the file's bytes and MIME type; the heading shows the
    label that was selected. *)
Theorem submit_result_any_label
    (f : UploadedFile) (prompt_choice : str) (input_text : option str)
    (s : state) (tpl txt : str) :
  truthy_opt (resolve_key (environ s)) = true ->
  dict_get (g_PROMPT_OPTIONS s) prompt_choice = Some tpl ->
  endpoint (sent s) (request_of s f input_text tpl) = Ok txt ->
  let text := default [] input_text in
  let r := submit_handler (Some f) prompt_choice input_text s in
  sent r.2 = sent s ++
    [{| via := g_client s;
        model := py "gemini-3-flash-preview";
        contents :=
          (if forallb isspace text then tpl
           else tpl ++ [10; 10] ++ py "Additional context from user: " ++ text,
           {| data := getvalue f; mime_type := type f |}) |}]
  /\ page r.2 = page s ++
       [st_spinner (py "Analyzing artifact...");
        st_subheader ([128220] ++ py " Result: " ++ prompt_choice);
        st_markdown (py "---");
        st_markdown txt].
Proof.
  intros Hk Hd He text r. subst text r.
  rewrite (submit_success _ _ _ _ _ _ Hk Hd He). simpl.
  unfold request_of. rewrite full_prompt_forallb. auto.
Qed.

(** X6. The configuration error is what the handler renders exactly when
    both variables are unset or empty. *)
Theorem config_error_iff
    (uploaded_file : option UploadedFile) (prompt_choice : str)
    (input_text : option str) (s : state) :
  let s' := (submit_handler uploaded_file prompt_choice input_text s).2 in
  page s' = page s ++
    [st_error (py "Add GEMINI_API_KEY or GOOGLE_API_KEY to your .env file.")]
  <->
  truthy_opt (environ s !! py "GEMINI_API_KEY") = false
  /\ truthy_opt (environ s !! py "GOOGLE_API_KEY") = false.
Proof.
  intros s'. subst s'.
  assert (Hiff : truthy_opt (resolve_key (environ s)) = false <->
                 truthy_opt (environ s !! py "GEMINI_API_KEY") = false
                 /\ truthy_opt (environ s !! py "GOOGLE_API_KEY") = false).
  { unfold resolve_key, py_or.
    destruct (truthy_opt (environ s !! py "GEMINI_API_KEY")) eqn:Ha.
    - rewrite Ha. split; [discriminate | intros [? _]; discriminate].
    - split; [auto | intros [_ ?]; assumption]. }
  rewrite <- Hiff. clear Hiff.
  destruct (truthy_opt (resolve_key (environ s))) eqn:Hk.
  - split; [|discriminate]. intros H. exfalso.
    destruct uploaded_file as [f|].
    + destruct (dict_get (g_PROMPT_OPTIONS s) prompt_choice) as [tpl|] eqn:Hd.
      * destruct (endpoint (sent s) (request_of s f input_text tpl))
          as [txt|e] eqn:He.
        -- rewrite (submit_success _ _ _ _ _ _ Hk Hd He) in H. simpl in H.
           apply app_inv_head in H. discriminate H.
        -- rewrite (submit_failure _ _ _ _ _ _ Hk Hd He) in H. simpl in H.
           apply app_inv_head in H. discriminate H.
      * rewrite (submit_key_error _ _ _ _ Hk Hd) in H. simpl in H.
        apply app_inv_head in H. discriminate H.
    + rewrite (submit_no_file _ _ _ Hk) in H. simpl in H.
      apply app_inv_head in H. vm_compute in H. discriminate H.
  - split; [reflexivity|]. intros _.
    rewrite (submit_no_key _ _ _ _ Hk). reflexivity.
Qed.

(** ** More on sequences of events *)

(** X7. Over any sequence of events the request log grows by at most one
    request per submission: a failed call is not tried again. *)
Theorem run_sent_at_most_one_per_submit (evs : list event) (s : state) :
  (length (sent (run evs s)) <= length (sent s) + count_submits evs)%nat.
Proof.
  revert s. induction evs as [|ev evs IH]; intros s; [simpl; lia|].
  change (run (ev :: evs) s) with (run evs (step s ev)).
  specialize (IH (step s ev)).
  assert (Hstep : (length (sent (step s ev))
                   <= length (sent s) + (if is_submit ev then 1 else 0))%nat).
  { destruct ev as [env|f c t]; [simpl; lia|].
    rewrite step_submit_sent, length_app. cbn [is_submit].
    destruct f as [uf|]; [|simpl; lia].
    destruct (dict_get PROMPT_OPTIONS c); [|simpl; lia].
    destruct (truthy_opt (resolve_key (environ s))); simpl; lia. }
  cbn [count_submits]. destruct (is_submit ev); lia.
Qed.

(** X8. Every request ever sent names the same model,
    "gemini-3-flash-preview". *)
Theorem run_requests_fixed_model (env : gmap str str) (evs : list event) :
  Forall (fun q => model q = py "gemini-3-flash-preview")
         (sent (run evs (startup env))).
Proof.
  assert (H : forall s,
             Forall (fun q => model q = py "gemini-3-flash-preview") (sent s) ->
             Forall (fun q => model q = py "gemini-3-flash-preview")
                    (sent (run evs s))).
  { induction evs as [|ev evs IH]; intros s Hs; [exact Hs|].
    change (run (ev :: evs) s) with (run evs (step s ev)).
    apply IH. apply step_sent_Forall; [|exact Hs].
    intros; reflexivity. }
  apply H. constructor.
Qed.

(** X9. As long as the environment is not changed after the client was
    built, every request goes out with the key that passed validation: a
    non-empty key, the one resolved from the environment. *)
Theorem requests_carry_validated_key (env : gmap str str) (evs : list event) :
  forallb is_submit evs = true ->
  Forall (fun q => api_key (via q) = resolve_key env
                   /\ truthy_opt (api_key (via q)) = true)
         (sent (run evs (startup env))).
Proof.
  intros Hev.
  assert (H : forall s,
             environ s = env ->
             Forall (fun q => api_key (via q) = resolve_key env
                              /\ truthy_opt (api_key (via q)) = true) (sent s) ->
             Forall (fun q => api_key (via q) = resolve_key env
                              /\ truthy_opt (api_key (via q)) = true)
                    (sent (run evs s))).
  { induction evs as [|ev evs IH]; intros s He Hs; [exact Hs|].
    simpl in Hev. apply andb_prop in Hev as [Hsub Hev].
    destruct ev as [env'|f c t]; [discriminate|].
    change (run (Submit f c t :: evs) s)
      with (run evs (step s (Submit f c t))).
    apply (IH Hev).
    - rewrite <- He. apply step_submit_environ.
    - apply (step_sent_Forall _ s (Submit f c t)); [|exact Hs].
      intros uf t' tpl Hk. cbn [via api_key]. rewrite He in *. auto. }
  apply H; [reflexivity | constructor].
Qed.

Lemma run_sent_truthy evs s :
  Forall (fun q => truthy_opt (api_key (via q)) = true) (sent s) ->
  Forall (fun q => truthy_opt (api_key (via q)) = true) (sent (run evs s)).
Proof.
  revert s. induction evs as [|ev evs IH]; intros s Hs; [exact Hs|].
  change (run (ev :: evs) s) with (run evs (step s ev)).
  apply IH. apply step_sent_Forall; [|exact Hs].
  intros uf t tpl Hk. exact Hk.
Qed.

(** C9, as the code has it.  The handler never changes the client, but
    every execution of the script builds it anew, at line 12, from the
    environment of the moment, the one validation reads again at line
    99.  So after any history, once the environment resolves a key, the
    next submission sends its request with that key, whatever key was
    resolved when the process started; and no request of a session is
    ever sent with an absent key. *)
Theorem client_key_follows_environment
    (env0 env1 : gmap str str) (evs : list event)
    (f : UploadedFile) (prompt_choice : str) (input_text : option str)
    (tpl : str) :
  truthy_opt (resolve_key env1) = true ->
  dict_get PROMPT_OPTIONS prompt_choice = Some tpl ->
  let s := run (evs ++ [EnvChange env1]) (startup env0) in
  let s' := step s (Submit (Some f) prompt_choice input_text) in
  g_client s' = {| api_key := resolve_key env1 |}
  /\ sent s' = sent s ++
       [{| via := {| api_key := resolve_key env1 |};
           model := py "gemini-3-flash-preview";
           contents := (full_prompt (default [] input_text) tpl,
                        {| data := getvalue f; mime_type := type f |}) |}]
  /\ Forall (fun q => truthy_opt (api_key (via q)) = true) (sent s').
Proof.
  intros Hk Hd s s'.
  assert (Henv : environ s = env1).
  { unfold s. rewrite run_app. reflexivity. }
  assert (Hs : Forall (fun q => truthy_opt (api_key (via q)) = true) (sent s)).
  { apply run_sent_truthy. constructor. }
  split; [|split].
  - unfold s'. simpl.
    destruct (bind_globals s) as [s0|] eqn:Hb.
    + apply bind_globals_Some in Hb as [_ ->].
      match goal with |- context [submit_handler _ _ _ ?s0] =>
        destruct (submit_handler_cases (Some f) prompt_choice input_text s0)
          as (es & rs & -> & _) end.
      simpl. rewrite Henv. reflexivity.
    + apply bind_globals_None in Hb. rewrite Henv in Hb. congruence.
  - unfold s'. rewrite step_submit_sent, Hd, Henv, Hk. reflexivity.
  - unfold s'. apply step_sent_Forall; [|exact Hs].
    intros uf t tpl' Hk'. exact Hk'.
Qed.

(** ** The select box and the catalog *)

Lemma dict_get_is_Some_iff (d : list (str * str)) (k : str) :
  is_Some (dict_get d k) <-> k ∈ keys d.
Proof.
  split.
  - intros [v Hv]. induction d as [|[k' v'] d IH]; simpl in *; [discriminate|].
    destruct (decide (k' = k)) as [->|_];
      [apply list_elem_of_here | apply list_elem_of_further, IH, Hv].
  - intros Hin. destruct (dict_get_keys d k Hin) as [v Hv]. eexists; exact Hv.
Qed.

(** X10. The labels the select box can hold are exactly those the
    catalog lookup accepts: whatever the dictionary is, a label can be
    picked if and only if looking it up yields a template. *)
Theorem selectbox_iff_lookup (d : list (str * str)) (label : str) :
  (exists pick, selectbox (keys d) 0 pick = Some label)
  <-> is_Some (dict_get d label).
Proof.
  rewrite dict_get_is_Some_iff. split.
  - intros [pick Hp]. exact (selectbox_elem _ _ _ _ Hp).
  - intros Hin. apply list_elem_of_lookup_1 in Hin as [i Hi].
    exists (Some i). exact Hi.
Qed.

(** ** More on the composer and on [strip] *)

(** X11. The composed prompt is the bare template exactly when the free
    text is blank; any other text changes the prompt. *)
Theorem full_prompt_eq_template_iff (input_text prompt : str) :
  full_prompt input_text prompt = prompt <-> forallb isspace input_text = true.
Proof.
  rewrite full_prompt_forallb.
  destruct (forallb isspace input_text); split; try reflexivity.
  - intros H. exfalso. rewrite <- (app_nil_r prompt) in H at 2.
    apply app_inv_head in H. discriminate H.
  - discriminate.
Qed.

Lemma lstrip_split (s : str) :
  exists a, s = a ++ lstrip s /\ forallb isspace a = true.
Proof.
  induction s as [|c s (a & Ha & Hsp)]; simpl.
  - exists []. split; reflexivity.
  - destruct (isspace c) eqn:Hc.
    + exists (c :: a). simpl. rewrite Hc, Hsp, <- Ha. split; reflexivity.
    + exists []. split; reflexivity.
Qed.

Lemma rstrip_split (s : str) :
  exists b, s = rstrip s ++ b /\ forallb isspace b = true.
Proof.
  destruct (lstrip_split (rev s)) as (a & Ha & Hsp).
  exists (rev a). split.
  - unfold rstrip. rewrite <- rev_app_distr, <- Ha, rev_involutive.
    reflexivity.
  - rewrite forallb_isspace_rev. exact Hsp.
Qed.

Lemma rstrip_last (s : str) (c : N) :
  last (rstrip s) = Some c -> isspace c = false.
Proof.
  unfold rstrip. intros Hl.
  pose proof (lstrip_head (rev s)) as Hh.
  destruct (lstrip (rev s)) as [|x t]; simpl in Hl.
  - discriminate.
  - rewrite last_snoc in Hl. congruence.
Qed.

(** X12. [strip] removes a run of whitespace at each end and nothing
    else: the string is a whitespace prefix, the trimmed string and a
    whitespace suffix, and the trimmed string neither starts nor ends
    with whitespace. *)
Theorem strip_decomposition (s : str) :
  exists a b,
    s = a ++ strip s ++ b
    /\ forallb isspace a = true
    /\ forallb isspace b = true
    /\ (forall c, head (strip s) = Some c -> isspace c = false)
    /\ (forall c, last (strip s) = Some c -> isspace c = false).
Proof.
  destruct (lstrip_split s) as (a & Ha & Hsa).
  destruct (rstrip_split (lstrip s)) as (b & Hb & Hsb).
  exists a, b. unfold strip.
  split; [rewrite <- Hb; exact Ha|].
  split; [exact Hsa|]. split; [exact Hsb|]. split.
  - intros c Hc. pose proof (lstrip_head s) as Hh.
    rewrite Hb in Hh.
    destruct (rstrip (lstrip s)) as [|x t]; simpl in *; congruence.
  - apply rstrip_last.
Qed.

(** ** More on key resolution *)

(** X13. Key resolution looks at no other variable: setting or removing
    any other name leaves the resolved key unchanged. *)
Theorem resolve_key_ignores_other_variables
    (env : gmap str str) (name value : str) :
  name <> py "GEMINI_API_KEY" ->
  name <> py "GOOGLE_API_KEY" ->
  resolve_key (<[name := value]> env) = resolve_key env
  /\ resolve_key (delete name env) = resolve_key env.
Proof.
  intros H1 H2. unfold resolve_key.
  rewrite !lookup_insert_ne, !lookup_delete_ne by assumption.
  split; reflexivity.
Qed.

(** ** One execution of the script *)

Section ScriptFacts.

Context (Image : Type) (Image_open : UploadedFile -> option Image).

Lemma script_no_key env uploaded_file prompt_choice input_text submit :
  truthy_opt (resolve_key env) = false ->
  script Image Image_open env uploaded_file prompt_choice input_text submit
  = (Crashed, [], startup env).
Proof.
  intros Hk. unfold script, bind_globals, genai_Client.
  change (environ (startup env)) with env. rewrite Hk. reflexivity.
Qed.

Lemma script_key env uploaded_file prompt_choice input_text submit :
  truthy_opt (resolve_key env) = true ->
  script Image Image_open env uploaded_file prompt_choice input_text submit
  = match show_upload Image Image_open uploaded_file with
    | None => (Crashed, [], startup env)
    | Some p =>
        if submit then
          match submit_handler uploaded_file prompt_choice input_text
                               (startup env) with
          | (Ok _, s') => (Finished, [p], s')
          | (Raise _, s') => (Crashed, [p], s')
          end
        else (Finished, [p], startup env)
    end.
Proof.
  intros Hk. unfold script. rewrite (bind_globals_startup env Hk). reflexivity.
Qed.

End ScriptFacts.

(** X14. One execution stops on an uncaught exception exactly when no
    key is resolved, so that the client's constructor raises at line 12,
    or a file was uploaded that [Image.open] cannot read; then nothing of
    the preview or of the handler is rendered and no request is sent,
    even with the button pressed.  The handler itself never stops the
    execution. *)
Theorem script_crashes_iff
    (Image : Type) (Image_open : UploadedFile -> option Image)
    (env : gmap str str) (uploaded_file : option UploadedFile)
    (prompt_choice : str) (input_text : option str) (submit : bool) :
  let r := script Image Image_open env uploaded_file prompt_choice
                  input_text submit in
  (r.1.1 = Crashed <->
   truthy_opt (resolve_key env) = false
   \/ exists f, uploaded_file = Some f /\ Image_open f = None)
  /\ (r.1.1 = Crashed -> r.1.2 = [] /\ page r.2 = [] /\ sent r.2 = []).
Proof.
  intros r. subst r.
  destruct (truthy_opt (resolve_key env)) eqn:Hk; cycle 1.
  { rewrite (script_no_key _ _ _ _ _ _ _ Hk). simpl. split; [|auto].
    split; [auto | reflexivity]. }
  rewrite (script_key _ _ _ _ _ _ _ Hk). unfold show_upload.
  destruct uploaded_file as [f|].
  - destruct (Image_open f) as [img|] eqn:Ho.
    + destruct submit.
      * destruct (submit_handler_cases (Some f) prompt_choice input_text
                    (startup env)) as (es & rs & -> & _).
        cbn [fst snd]. split; [|discriminate].
        split; [discriminate|]. intros [?|(f' & Hf & Hn)]; congruence.
      * cbn [fst snd]. split; [|discriminate].
        split; [discriminate|]. intros [?|(f' & Hf & Hn)]; congruence.
    + cbn [fst snd]. split; [|auto]. split; [|reflexivity].
      intros _. right. exists f. auto.
  - destruct submit.
    + destruct (submit_handler_cases None prompt_choice input_text
                  (startup env)) as (es & rs & -> & _).
      cbn [fst snd]. split; [|discriminate].
      split; [discriminate|]. intros [?|(f' & Hf & _)]; discriminate.
    + cbn [fst snd]. split; [|discriminate].
      split; [discriminate|]. intros [?|(f' & Hf & _)]; discriminate.
Qed.

(** X15. One execution sends at most one request, and sends one exactly
    when the button was pressed, a file was uploaded that [Image.open]
    reads, a key is resolved and the label is a key of the catalog. *)
Theorem script_request_iff
    (Image : Type) (Image_open : UploadedFile -> option Image)
    (env : gmap str str) (uploaded_file : option UploadedFile)
    (prompt_choice : str) (input_text : option str) (submit : bool) :
  let r := script Image Image_open env uploaded_file prompt_choice
                  input_text submit in
  (length (sent r.2) <= 1)%nat
  /\ (sent r.2 <> [] <->
      submit = true
      /\ (exists f image, uploaded_file = Some f /\ Image_open f = Some image)
      /\ truthy_opt (resolve_key env) = true
      /\ is_Some (dict_get PROMPT_OPTIONS prompt_choice)).
Proof.
  intros r. subst r.
  destruct (truthy_opt (resolve_key env)) eqn:Hk; cycle 1.
  { rewrite (script_no_key _ _ _ _ _ _ _ Hk). simpl.
    split; [lia|]. split; [congruence|].
    intros (_ & _ & Hk' & _). discriminate. }
  rewrite (script_key _ _ _ _ _ _ _ Hk). unfold show_upload.
  destruct submit; cycle 1.
  { destruct uploaded_file as [f|]; [destruct (Image_open f)|]; simpl;
      (split; [lia|]); (split; [congruence|]);
      intros (Hs & _); discriminate. }
  destruct uploaded_file as [f|]; cycle 1.
  { rewrite (submit_no_file _ _ _ (Hk : truthy_opt
               (resolve_key (environ (startup env))) = true)).
    simpl. split; [lia|]. split; [congruence|].
    intros (_ & (f' & img & Hf & _) & _). discriminate. }
  destruct (Image_open f) as [img|] eqn:Ho; cycle 1.
  { simpl. split; [lia|]. split; [congruence|].
    intros (_ & (f' & img & Hf & Hi) & _). congruence. }
  destruct (dict_get PROMPT_OPTIONS prompt_choice) as [tpl|] eqn:Hd; cycle 1.
  { rewrite (submit_key_error _ _ _ _
               (Hk : truthy_opt (resolve_key (environ (startup env))) = true)
               (Hd : dict_get (g_PROMPT_OPTIONS (startup env)) prompt_choice
                     = None)).
    simpl. split; [lia|]. split; [congruence|].
    intros (_ & _ & _ & [v Hv]). discriminate. }
  assert (Hs : sent (submit_handler (Some f) prompt_choice input_text
                       (startup env)).2
               = [request_of (startup env) f input_text tpl]).
  { rewrite (submit_sent_new f prompt_choice input_text (startup env) Hk).
    change (g_PROMPT_OPTIONS (startup env)) with PROMPT_OPTIONS.
    rewrite Hd. reflexivity. }
  destruct (submit_handler (Some f) prompt_choice input_text (startup env))
    as [[u|e] s'] eqn:Hh; simpl in Hs |- *; rewrite Hs; simpl;
    (split; [lia|]); (split; [|discriminate]); intros _;
    (repeat split; [exists f, img; auto | eexists; reflexivity]).
Qed.

(** X16. With a key resolved, the button pressed, a label taken from the
    select box and an upload that is absent or readable, the execution
    finishes and shows one of three things: the input error, the result
    of the request, or "Error: " and the text of the exception the
    endpoint raised.  The configuration error is not shown and the lookup
    in the catalog does not fail. *)
Theorem script_outcomes
    (Image : Type) (Image_open : UploadedFile -> option Image)
    (env : gmap str str) (uploaded_file : option UploadedFile)
    (prompt_choice : str) (input_text : option str) (pick : option nat) :
  truthy_opt (resolve_key env) = true ->
  selectbox (keys PROMPT_OPTIONS) 0 pick = Some prompt_choice ->
  show_upload Image Image_open uploaded_file <> None ->
  let r := script Image Image_open env uploaded_file prompt_choice
                  input_text true in
  r.1.1 = Finished
  /\ ((uploaded_file = None
       /\ page r.2 = [st_error (py "Please upload an image first.")]
       /\ sent r.2 = [])
      \/ (exists f tpl q,
            uploaded_file = Some f
            /\ dict_get PROMPT_OPTIONS prompt_choice = Some tpl
            /\ q = {| via := {| api_key := resolve_key env |};
                      model := py "gemini-3-flash-preview";
                      contents :=
                        (full_prompt (default [] input_text) tpl,
                         {| data := getvalue f; mime_type := type f |}) |}
            /\ sent r.2 = [q]
            /\ ((exists txt,
                   endpoint [] q = Ok txt
                   /\ page r.2 =
                      [st_spinner (py "Analyzing artifact...");
                       st_subheader ([128220] ++ py " Result: " ++ prompt_choice);
                       st_markdown (py "---");
                       st_markdown txt])
                \/ (exists m,
                      endpoint [] q = Raise (GenerationError m)
                      /\ page r.2 =
                         [st_spinner (py "Analyzing artifact...");
                          st_error (py "Error: " ++ m)])
                \/ (exists k,
                      endpoint [] q = Raise (KeyError k)
                      /\ page r.2 =
                         [st_spinner (py "Analyzing artifact...");
                          st_error (py "Error: " ++ repr k)])))).
Proof.
  intros Hk Hsel Hshow r. subst r.
  rewrite (script_key _ _ _ _ _ _ _ Hk).
  destruct (show_upload Image Image_open uploaded_file) as [p|] eqn:Hp;
    [clear Hshow | congruence].
  apply selectbox_elem, dict_get_keys in Hsel as [tpl Hd].
  destruct uploaded_file as [f|]; cycle 1.
  { rewrite (submit_no_file _ _ _ (Hk : truthy_opt
               (resolve_key (environ (startup env))) = true)).
    cbn [fst snd with_output page sent startup app].
    split; [reflexivity|]. left. auto. }
  destruct (endpoint [] (request_of (startup env) f input_text tpl))
    as [txt|e] eqn:He.
  - rewrite (submit_success _ _ _ _ _ _
               (Hk : truthy_opt (resolve_key (environ (startup env))) = true)
               (Hd : dict_get (g_PROMPT_OPTIONS (startup env)) prompt_choice
                     = Some tpl)
               (He : endpoint (sent (startup env)) _ = Ok txt)).
    cbn [fst snd with_output page sent startup app].
    split; [reflexivity|]. right.
    exists f, tpl, (request_of (startup env) f input_text tpl).
    split; [reflexivity|]. split; [exact Hd|].
    split; [reflexivity|]. split; [reflexivity|].
    left. exists txt. split; [exact He | reflexivity].
  - rewrite (submit_failure _ _ _ _ _ _
               (Hk : truthy_opt (resolve_key (environ (startup env))) = true)
               (Hd : dict_get (g_PROMPT_OPTIONS (startup env)) prompt_choice
                     = Some tpl)
               (He : endpoint (sent (startup env)) _ = Raise e)).
    cbn [fst snd with_output page sent startup app].
    split; [reflexivity|]. right.
    exists f, tpl, (request_of (startup env) f input_text tpl).
    split; [reflexivity|]. split; [exact Hd|].
    split; [reflexivity|]. split; [reflexivity|].
    right. destruct e as [k|m].
    + right. exists k. split; [exact He | reflexivity].
    + left. exists m. split; [exact He | reflexivity].
Qed.

End App.

(** ** Key resolution *)

(** C6. Key resolution looks at GEMINI_API_KEY, then GOOGLE_API_KEY, and
    yields the first value that is set and non-empty; with the first one
    unset or empty and the second one non-empty it yields the second.
    Both the client's construction and the handler resolve the key this
    way. *)
Theorem resolve_key_first_non_empty (env : gmap str str) :
  let candidates :=
    [env !! py "GEMINI_API_KEY"; env !! py "GOOGLE_API_KEY"] in
  (forall v, first_non_empty candidates = Some v -> resolve_key env = Some v)
  /\ (first_non_empty candidates = None ->
      truthy_opt (resolve_key env) = false)
  /\ (forall v,
        truthy_opt (env !! py "GEMINI_API_KEY") = false ->
        env !! py "GOOGLE_API_KEY" = Some v -> v <> [] ->
        resolve_key env = Some v)
  /\ api_key (g_client (startup env)) = resolve_key env
  /\ (forall s, environ s = env -> getenv_key s = (Ok (resolve_key env), s)).
Proof.
  intros candidates. subst candidates.
  split; [|split; [|split; [|split]]].
  - unfold resolve_key, py_or.
    destruct (env !! py "GEMINI_API_KEY") as [[|c a]|];
      destruct (env !! py "GOOGLE_API_KEY") as [[|d b]|]; cbn; congruence.
  - unfold resolve_key, py_or.
    destruct (env !! py "GEMINI_API_KEY") as [[|c a]|];
      destruct (env !! py "GOOGLE_API_KEY") as [[|d b]|]; cbn; congruence.
  - intros v Hg Hv Hne. unfold resolve_key, py_or. rewrite Hg. exact Hv.
  - reflexivity.
  - intros s <-. reflexivity.
Qed.

(** ** Requests carry no history *)

(** X17. What a submission sends depends on the widget values and on
    the environment of the moment only: from any two states of a session
    that hold the same environment, and with any two endpoints, the same
    widget values give the same request, or none in both. *)
Theorem request_independent_of_history
    (endpoint1 endpoint2 : list request -> request -> outcome str)
    (repr1 repr2 : str -> str)
    (s1 s2 : state)
    (uploaded_file : option UploadedFile) (prompt_choice : str)
    (input_text : option str) :
  environ s1 = environ s2 ->
  drop (length (sent s1))
       (sent (step endpoint1 repr1 s1
                (Submit uploaded_file prompt_choice input_text)))
  = drop (length (sent s2))
         (sent (step endpoint2 repr2 s2
                  (Submit uploaded_file prompt_choice input_text))).
Proof.
  intros He. rewrite !step_submit_sent, !drop_app_length, He. reflexivity.
Qed.

(** ** Concrete runs *)

Lemma full_prompt_with_context_witness :
  full_prompt (py " Found in a temple ") (py "You are a historian.") =
  py "You are a historian." ++ [10; 10]
    ++ py "Additional context from user: " ++ py " Found in a temple ".
Proof.
  apply full_prompt_with_context. vm_compute. discriminate.
Defined.

Lemma full_prompt_blank_witness :
  full_prompt [32; 9; 10; 160; 8195] (py "You are a historian.") =
  py "You are a historian.".
Proof.
  apply full_prompt_blank. right. vm_compute. reflexivity.
Defined.


Lemma submit_without_image_witness :
  let s := startup env_primary in
  let r := submit_handler endpoint_axe repr_quoted None
             (py "Describe") (Some []) s in
  r.1 = Ok tt
  /\ page r.2 = page s ++ [st_error (py "Please upload an image first.")]
  /\ sent r.2 = sent s.
Proof.
  apply (submit_without_image endpoint_axe repr_quoted
           (py "Describe") (Some []) (startup env_primary)).
  vm_compute. reflexivity.
Defined.

Lemma submit_generation_failure_witness :
  let s := startup env_primary in
  let r := submit_handler endpoint_quota repr_quoted (Some sample_png)
             (py "Describe") (Some []) s in
  r.1 = Ok tt
  /\ page r.2 = page s ++
       [st_spinner (py "Analyzing artifact...");
        st_error (py "Error: " ++ py "quota exceeded")]
  /\ (forall x, x ∈ drop (length (page s)) (page r.2) -> is_result x = false).
Proof.
  destruct (dict_get PROMPT_OPTIONS (py "Describe")) as [tpl|] eqn:Hd;
    [|vm_compute in Hd; discriminate].
  apply (submit_generation_failure endpoint_quota repr_quoted sample_png
           (py "Describe") (Some []) (startup env_primary) tpl
           (py "quota exceeded")).
  - vm_compute. reflexivity.
  - exact Hd.
  - reflexivity.
Defined.

Lemma submit_identify_success_witness :
  let s := startup env_primary in
  let r := submit_handler endpoint_axe repr_quoted (Some sample_png)
             (py "Identify & Classify") (Some []) s in
  r.1 = Ok tt
  /\ sent r.2 = sent s ++
       [{| via := g_client s;
           model := py "gemini-3-flash-preview";
           contents :=
             (py "You are an expert art historian. Identify and classify the artifact in the image. Specify its type, estimated era or period, materials used, cultural origin, and any distinguishing features that help with identification.",
              {| data := getvalue sample_png;
                 mime_type := type sample_png |}) |}]
  /\ page r.2 = page s ++
       [st_spinner (py "Analyzing artifact...");
        st_subheader ([128220] ++ py " Result: Identify & Classify");
        st_markdown (py "---");
        st_markdown (py "A bronze axe head.")].
Proof.
  destruct (submit_identify_success endpoint_axe repr_quoted sample_png
              (Some []) (startup env_primary)
              (py "You are an expert art historian. Identify and classify the artifact in the image. Specify its type, estimated era or period, materials used, cultural origin, and any distinguishing features that help with identification."))
    as (H1 & H2 & H3).
  - vm_compute. reflexivity.
  - reflexivity.
  - reflexivity.
  - vm_compute. reflexivity.
  - split; [exact H1|]. split; [exact H2|].
    apply (H3 (py "A bronze axe head.")). reflexivity.
Defined.

(** C8, as stated, fails: in the scenario of the specification (a key
    in the environment, a complete PNG file that the preview reads, the
    option "Identify & Classify", no free text, the button pressed, the
    endpoint answering "A bronze axe head.") the execution finishes and
    sends one request, and no element rendered is a heading with the
    text "Result: Identify & Classify". *)
Lemma submit_identify_heading_counterexample :
  let r := script endpoint_axe repr_quoted bytes Image_open_sample
                  env_primary (Some sample_png) (py "Identify & Classify")
                  (Some []) true in
  r.1.1 = Finished
  /\ length (sent r.2) = 1%nat
  /\ ~ In (st_subheader (py "Result: Identify & Classify")) (page r.2).
Proof.
  vm_compute. split; [reflexivity|]. split; [reflexivity|].
  intros [H|[H|[H|[H|[]]]]]; discriminate H.
Qed.

Lemma selected_label_lookup_succeeds_witness :
  exists tpl,
    PROMPT_OPTIONS_getitem (py "Cultural Analysis") (startup env_primary)
    = (Ok tpl, startup env_primary)
    /\ sent (submit_handler endpoint_axe repr_quoted (Some sample_png)
               (py "Cultural Analysis") None (startup env_primary)).2
       = sent (startup env_primary)
         ++ [request_of (startup env_primary) sample_png None tpl].
Proof.
  apply (selected_label_lookup_succeeds endpoint_axe repr_quoted sample_png
           None (startup env_primary) (Some 4%nat) (py "Cultural Analysis")).
  - vm_compute. reflexivity.
  - vm_compute. reflexivity.
Defined.

Lemma client_key_follows_environment_witness :
  let s := run endpoint_axe repr_quoted
             ([Submit (Some sample_png) (py "Describe") None]
              ++ [EnvChange env_fallback]) (startup env_primary) in
  let s' := step endpoint_axe repr_quoted s
              (Submit (Some sample_png) (py "Describe")
                      (Some (py "bronze"))) in
  g_client s' = {| api_key := resolve_key env_fallback |}
  /\ sent s' = sent s ++
       [{| via := {| api_key := resolve_key env_fallback |};
           model := py "gemini-3-flash-preview";
           contents :=
             (full_prompt (default [] (Some (py "bronze")))
                (py "You are a historian. Provide a comprehensive description of the historical artifact in the image. Include its physical appearance, materials, craftsmanship, and overall significance."),
              {| data := getvalue sample_png;
                 mime_type := type sample_png |}) |}]
  /\ Forall (fun q => truthy_opt (api_key (via q)) = true) (sent s').
Proof.
  apply (client_key_follows_environment endpoint_axe repr_quoted
           env_primary env_fallback
           [Submit (Some sample_png) (py "Describe") None] sample_png
           (py "Describe") (Some (py "bronze"))).
  - vm_compute. reflexivity.
  - vm_compute. reflexivity.
Defined.

(** C9, as stated, fails: the process starts with one key in the
    environment, the environment is then changed to resolve another key,
    and the next submission sends its request with the new key, not with
    the one resolved at start. *)
Lemma client_key_startup_counterexample :
  let s := run endpoint_axe repr_quoted
             [EnvChange env_fallback;
              Submit (Some sample_png) (py "Describe") None]
             (startup env_primary) in
  exists q,
    sent s = [q]
    /\ api_key (via q) = Some (py "k-fallback")
    /\ resolve_key env_primary = Some (py "k-primary")
    /\ api_key (via q) <> resolve_key env_primary.
Proof.
  eexists. split; [vm_compute; reflexivity|].
  split; [vm_compute; reflexivity|].
  split; [vm_compute; reflexivity|].
  vm_compute. discriminate.
Qed.

Lemma resolve_key_first_non_empty_witness :
  resolve_key env_fallback = Some (py "k-fallback").
Proof.
  destruct (resolve_key_first_non_empty env_fallback) as (_ & _ & H & _).
  apply H.
  - vm_compute. reflexivity.
  - vm_compute. reflexivity.
  - vm_compute. discriminate.
Defined.

Lemma submit_unknown_label_witness :
  let s := startup env_primary in
  let r := submit_handler endpoint_axe repr_quoted (Some sample_png)
             (py "Bogus") None s in
  r.1 = Ok tt
  /\ page r.2 = page s ++
       [st_spinner (py "Analyzing artifact...");
        st_error (py "Error: " ++ repr_quoted (py "Bogus"))]
  /\ sent r.2 = sent s.
Proof.
  apply (submit_unknown_label endpoint_axe repr_quoted sample_png
           (py "Bogus") None (startup env_primary)).
  - vm_compute. reflexivity.
  - refine (bool_decide_unpack _ _). vm_compute. exact I.
Defined.

Lemma submit_result_any_label_witness :
  let s := startup env_primary in
  let tpl := default [] (dict_get PROMPT_OPTIONS (py "Historical Context")) in
  let r := submit_handler endpoint_axe repr_quoted (Some sample_png)
             (py "Historical Context") (Some (py " found in 1922 ")) s in
  sent r.2 = sent s ++
    [{| via := g_client s;
        model := py "gemini-3-flash-preview";
        contents :=
          (if forallb isspace (py " found in 1922 ") then tpl
           else tpl ++ [10; 10] ++ py "Additional context from user: "
                    ++ py " found in 1922 ",
           {| data := getvalue sample_png; mime_type := type sample_png |}) |}]
  /\ page r.2 = page s ++
       [st_spinner (py "Analyzing artifact...");
        st_subheader ([128220] ++ py " Result: " ++ py "Historical Context");
        st_markdown (py "---");
        st_markdown (py "A bronze axe head.")].
Proof.
  apply (submit_result_any_label endpoint_axe repr_quoted sample_png
           (py "Historical Context") (Some (py " found in 1922 "))
           (startup env_primary)
           (default [] (dict_get PROMPT_OPTIONS (py "Historical Context")))
           (py "A bronze axe head.")).
  - vm_compute. reflexivity.
  - vm_compute. reflexivity.
  - reflexivity.
Defined.

Lemma requests_carry_validated_key_witness :
  Forall (fun q => api_key (via q) = resolve_key env_fallback
                   /\ truthy_opt (api_key (via q)) = true)
         (sent (run endpoint_quota repr_quoted
                  [Submit (Some sample_png) (py "Describe") None;
                   Submit None (py "Describe") None;
                   Submit (Some sample_png) (py "Cultural Analysis")
                          (Some (py "bronze"))]
                  (startup env_fallback))).
Proof.
  apply (requests_carry_validated_key endpoint_quota repr_quoted env_fallback).
  reflexivity.
Defined.

Lemma resolve_key_ignores_other_variables_witness :
  resolve_key (<[py "PATH" := py "/usr/bin"]> env_fallback)
  = resolve_key env_fallback
  /\ resolve_key (delete (py "PATH") env_fallback) = resolve_key env_fallback.
Proof.
  apply (resolve_key_ignores_other_variables env_fallback (py "PATH")
           (py "/usr/bin")).
  - vm_compute. discriminate.
  - vm_compute. discriminate.
Defined.

Lemma script_outcomes_witness :
  (script endpoint_axe repr_quoted bytes Image_open_sample env_primary
          (Some sample_png) (py "Cultural Analysis") None true).1.1
  = Finished.
Proof.
  refine (proj1 (script_outcomes endpoint_axe repr_quoted bytes
                   Image_open_sample env_primary (Some sample_png)
                   (py "Cultural Analysis") None (Some 4%nat) _ _ _)).
  - vm_compute. reflexivity.
  - vm_compute. reflexivity.
  - vm_compute. discriminate.
Defined.

Lemma request_independent_of_history_witness :
  let s1 := run endpoint_axe repr_quoted [] (startup env_fallback) in
  let s2 := run endpoint_quota repr_quoted
              [Submit (Some sample_png) (py "Describe") None;
               EnvChange env_fallback] (startup env_primary) in
  drop (length (sent s1))
       (sent (step endpoint_axe repr_quoted s1
                (Submit (Some sample_png) (py "Describe")
                        (Some (py "bronze")))))
  = drop (length (sent s2))
         (sent (step endpoint_quota repr_quoted s2
                  (Submit (Some sample_png) (py "Describe")
                          (Some (py "bronze"))))).
Proof.
  apply (request_independent_of_history endpoint_axe endpoint_quota
           repr_quoted repr_quoted
           (run endpoint_axe repr_quoted [] (startup env_fallback))
           (run endpoint_quota repr_quoted
              [Submit (Some sample_png) (py "Describe") None;
               EnvChange env_fallback] (startup env_primary))
           (Some sample_png) (py "Describe") (Some (py "bronze"))).
  vm_compute. reflexivity.
Defined.
